(** * Implied growth rate calculator (Gordon growth model)

    A shallow embedding of the computational part of the calculator:
    [calculateImpliedGrowthRate] (the stand-alone function of the first
    version of the component), and [validateInputs] and [model] (the
    validation predicate and the memoised computation of [App.jsx]).
    Around them: the first version's array-based validation and model
    (module [V1]), [chartData], [CustomLabel], the screen-reader table row
    and the conditions under which each block is rendered.

    Numbers are read in two ways.  Statements that mirror the code's own
    expressions, compare values or describe the structure of the result
    are made over exact rationals [Q]: every input is a finite decimal,
    [+], [-], [*], [/], [Math.abs] and [Math.pow] at an integer exponent
    are the exact operations, compared with [==] ([Qeq]); division by zero
    is never relied upon.  Where the rounding of IEEE 754 doubles decides
    (whether the financial test of [validateInputs] fires, whether [model]
    is [null], whether [g] is exactly zero), the same code is transcribed
    over binary64 floats in module [Double] and the statement is made
    there. *)

From Stdlib Require Import QArith Qabs Qpower Qminmax Lqa Floats.
From stdpp Require Import gmap strings list fin_maps pretty.

Set Warnings "-inexact-float".

Local Open Scope Q_scope.

(** ** Numbers *)

Module Js.

(** [x < y], [x <= y], [x > y], [x >= y] on numbers, as booleans. *)
Definition lt (x y : Q) : bool :=
  match x ?= y with Lt => true | _ => false end.
Definition le (x y : Q) : bool := Qle_bool x y.
Definition gt (x y : Q) : bool := lt y x.
Definition ge (x y : Q) : bool := le y x.

(** [!x] on a number: true for zero (and for NaN, which is not modelled). *)
Definition not_ (x : Q) : bool := Qeq_bool x 0.

(** [Math.abs] and [Math.pow(x, n)] for a loop counter [n]. *)
Definition abs (x : Q) : Q := Qabs x.
Definition pow (x : Q) (n : nat) : Q := Qpower x (Z.of_nat n).

End Js.

(** ** Data model *)

Record Inputs := mkInputs {
  marketPrice : Q;
  dividendAmount : Q;
  requiredReturn : Q;
  expectedDividend : Q
}.

Record CashflowPoint := mkCashflowPoint {
  year : nat;
  dividend : Q;
  investment : Q;
  total : Q
}.

Record GrowthModelResult := mkResult {
  impliedGrowth : Q;
  cashflows : list CashflowPoint;
  d1Consistent : bool;
  calculatedD1 : Q;
  isValid : bool
}.

(** ** [calculateImpliedGrowthRate] *)

(** The implied growth fraction [g = r - D1 / P], the local [impliedGrowth]
    of the function. *)
Definition growthFraction (inputs : Inputs) : Q :=
  let r := requiredReturn inputs / 100 in
  r - (expectedDividend inputs / marketPrice inputs).

(** One turn of the loop body: the row pushed for [year]. *)
Definition cashflowRow (d0 price impliedGrowth : Q) (year : nat)
  : CashflowPoint :=
  match year with
  | O =>
      {| year := year; dividend := 0; investment := - price;
         total := - price |}
  | S _ =>
      let dividend := d0 * Js.pow (1 + impliedGrowth) year in
      {| year := year; dividend := dividend; investment := 0;
         total := dividend |}
  end.

(** [for (let year = 0; year <= 10; year++) cashflows.push(...)]: the
    counter runs over [0..10] and every turn appends one row. *)
Definition cashflowLoop (d0 price impliedGrowth : Q) : list CashflowPoint :=
  fold_left (fun cashflows year =>
               cashflows ++ [cashflowRow d0 price impliedGrowth year])
            (seq 0 11) [].

Definition calculateImpliedGrowthRate (inputs : Inputs) : GrowthModelResult :=
  let r := requiredReturn inputs / 100 in
  let d0 := dividendAmount inputs in
  let d1 := expectedDividend inputs in
  let price := marketPrice inputs in
  let impliedGrowth := r - (d1 / price) in
  let impliedGrowthPct := impliedGrowth * 100 in
  let calculatedD1 := d0 * (1 + impliedGrowth) in
  let d1Consistent := Js.lt (Js.abs (d1 - calculatedD1)) (1 # 100) in
  let cashflows := cashflowLoop d0 price impliedGrowth in
  {| impliedGrowth := impliedGrowthPct;
     cashflows := cashflows;
     d1Consistent := d1Consistent;
     calculatedD1 := calculatedD1;
     isValid := Js.lt impliedGrowth r && Js.ge impliedGrowth 0 |}.

(** ** [validateInputs] and [model] of [App.jsx] *)

(** The error object: a map from field name to message.  (The second copy
    of the component differs from [App.jsx] in the wording of the
    [financial] message only.) *)
Definition validateInputs (inputs : Inputs) : gmap string string :=
  let errors : gmap string string := ∅ in
  let errors :=
    if Js.not_ (marketPrice inputs) || Js.lt (marketPrice inputs) 1 then
      <["marketPrice" := "Market price must be at least $1"]> errors
    else if Js.gt (marketPrice inputs) 500 then
      <["marketPrice" := "Market price cannot exceed $500"]> errors
    else errors in
  let errors :=
    if Js.lt (dividendAmount inputs) 0 then
      <["dividendAmount" := "Current dividend cannot be negative"]> errors
    else if Js.gt (dividendAmount inputs) 50 then
      <["dividendAmount" := "Current dividend cannot exceed $50"]> errors
    else errors in
  let errors :=
    if Js.not_ (requiredReturn inputs) || Js.le (requiredReturn inputs) 0 then
      <["requiredReturn" := "Required return must be positive"]> errors
    else if Js.gt (requiredReturn inputs) 25 then
      <["requiredReturn" := "Required return cannot exceed 25%"]> errors
    else errors in
  let errors :=
    if Js.lt (expectedDividend inputs) 0 then
      <["expectedDividend" := "Expected dividend cannot be negative"]> errors
    else if Js.gt (expectedDividend inputs) 50 then
      <["expectedDividend" := "Expected dividend cannot exceed $50"]> errors
    else errors in
  (* Financial logic validation *)
  let errors :=
    if Js.gt (requiredReturn inputs) 0 && Js.gt (expectedDividend inputs) 0
       && Js.gt (marketPrice inputs) 0 then
      let impliedGrowth :=
        (requiredReturn inputs / 100)
        - (expectedDividend inputs / marketPrice inputs) in
      if Js.ge impliedGrowth (requiredReturn inputs / 100) then
        <["financial" :=
           "These inputs would result in invalid growth rate (g ≥ r)"]> errors
      else errors
    else errors in
  errors.

(** [Object.keys(inputErrors).length > 0] *)
Definition hasErrors (errors : gmap string string) : bool :=
  negb (bool_decide (size errors = 0%nat)).

(** The memoised [model]: [None] is the [null] returned when validation
    reported something. *)
Definition model (inputs : Inputs) : option GrowthModelResult :=
  let inputErrors := validateInputs inputs in
  if hasErrors inputErrors then None
  else
    let r := requiredReturn inputs / 100 in
    let d0 := dividendAmount inputs in
    let d1 := expectedDividend inputs in
    let price := marketPrice inputs in
    let impliedGrowth := r - (d1 / price) in
    let impliedGrowthPct := impliedGrowth * 100 in
    let calculatedD1 := d0 * (1 + impliedGrowth) in
    let d1Consistent := Js.lt (Js.abs (d1 - calculatedD1)) (1 # 100) in
    let cashflows := cashflowLoop d0 price impliedGrowth in
    Some {| impliedGrowth := impliedGrowthPct;
            cashflows := cashflows;
            d1Consistent := d1Consistent;
            calculatedD1 := calculatedD1;
            isValid := Js.lt impliedGrowth r && Js.ge impliedGrowth 0 |}.

(** The spec's worked example and the default form state. *)
Definition exampleInputs : Inputs :=
  {| marketPrice := 5456 # 100; dividendAmount := 360 # 100;
     requiredReturn := 740 # 100; expectedDividend := 350 # 100 |}.


(** ** Vocabulary of the statements *)

(** [res] is a result of the growth-rate computation on [inputs]: the value
    returned by [calculateImpliedGrowthRate], or the object held by [model]. *)
Definition resultOf (inputs : Inputs) (res : GrowthModelResult) : Prop :=
  res = calculateImpliedGrowthRate inputs \/ model inputs = Some res.

(** Two input records, and two rows, that hold the same numbers. *)
Definition sameInputs (a b : Inputs) : Prop :=
  marketPrice a == marketPrice b /\ dividendAmount a == dividendAmount b /\
  requiredReturn a == requiredReturn b /\
  expectedDividend a == expectedDividend b.

Definition sameRow (a b : CashflowPoint) : Prop :=
  year a = year b /\ dividend a == dividend b /\
  investment a == investment b /\ total a == total b.

(** The documented ranges of the four fields. *)
Definition inRange (inputs : Inputs) : Prop :=
  (1 <= marketPrice inputs <= 500) /\
  (0 <= dividendAmount inputs <= 50) /\
  (0 < requiredReturn inputs <= 25) /\
  (0 <= expectedDividend inputs <= 50).

(** ** The presentation layer *)

Module JsMath.

(** [Math.max] and [Math.min] of two numbers. *)
Definition max (x y : Q) : Q := Qmax x y.
Definition min (x y : Q) : Q := Qmin x y.

(** A number used as a condition: zero is falsy. *)
Definition truthy (x : Q) : bool := negb (Js.not_ x).

(** [n.toString()] for a loop counter: its decimal numeral. *)
Definition toString (n : nat) : string := pretty n.

End JsMath.

(** The rows handed to the chart. *)
Module Chart.

Record Row := mkRow {
  yearLabel : string;
  year : nat;
  dividendFlow : Q;
  investmentFlow : Q;
  growthLine : Q
}.

End Chart.

(** [chartData]: nothing without a model, else one row per cash flow. *)
Definition chartData (model : option GrowthModelResult) : list Chart.Row :=
  match model with
  | None => []
  | Some model =>
      map (fun cf =>
             {| Chart.yearLabel := JsMath.toString (year cf);
                Chart.year := year cf;
                Chart.dividendFlow := dividend cf;
                Chart.investmentFlow := investment cf;
                Chart.growthLine := impliedGrowth model |})
          (cashflows model)
  end.

(** The upper end of the right axis, [Math.max(5, model.impliedGrowth * 1.5)];
    the lower end is 0. *)
Definition growthAxisMax (model : GrowthModelResult) : Q :=
  JsMath.max 5 (impliedGrowth model * (15 # 10)).

(** What a bar label receives and what it draws. *)
Module Props.

Record t := mk { x : Q; y : Q; width : Q; height : Q; value : Q }.

End Props.

Module Text.

Record t := mk {
  x : Q;
  y : Q;
  textAnchor : string;
  fill : string;
  fontSize : string;
  fontWeight : string;
  children : string
}.

End Text.

(** [CustomLabel] of [App.jsx].  [toFixed] stands for the built-in
    [Number.prototype.toFixed], which the statements leave arbitrary. *)
Definition CustomLabel (toFixed : Q -> nat -> string) (props : Props.t)
  : option Text.t :=
  let x := Props.x props in
  let y := Props.y props in
  let width := Props.width props in
  let value := Props.value props in
  if Js.not_ value || Js.lt (Js.abs value) (1 # 100) then None
  else
    let isNegative := Js.lt value 0 in
    let labelY := y - 8 in
    Some {| Text.x := x + width / 2;
            Text.y := labelY;
            Text.textAnchor := "middle";
            Text.fill := "#000";
            Text.fontSize := "11";
            Text.fontWeight := "bold";
            Text.children :=
              (if isNegative then "(" else "")
              +:+ "$" +:+ toFixed (Js.abs value) 2%nat
              +:+ (if isNegative then ")" else "") |}.

(** One body row of the screen-reader table. *)
Record TableRow := mkTableRow {
  rowKey : nat;
  headerCell : string;
  investmentCell : string;
  dividendCell : string;
  growthCell : string
}.

Definition tableRow (toFixed : Q -> nat -> string) (row : Chart.Row)
  : TableRow :=
  {| rowKey := Chart.year row;
     headerCell := Chart.yearLabel row;
     investmentCell :=
       if JsMath.truthy (Chart.investmentFlow row)
       then "(" +:+ toFixed (Js.abs (Chart.investmentFlow row)) 2%nat +:+ ")"
       else "--";
     dividendCell :=
       if JsMath.truthy (Chart.dividendFlow row)
       then toFixed (Chart.dividendFlow row) 2%nat
       else "--";
     growthCell := toFixed (Chart.growthLine row) 2%nat |}.

(** [ValidationMessage]: nothing for an empty error object, else one item
    per entry, keyed by field name.  (The order of the items on the page is
    not modelled.) *)
Definition ValidationMessage (errors : gmap string string)
  : option (gmap string string) :=
  if bool_decide (size errors = 0%nat) then None
  else Some ((fun error => "• " +:+ error) <$> errors).

(** The conditions under which the component renders its blocks. *)
Definition validityWarningShown (inputs : Inputs) : bool :=
  match model inputs with
  | Some model => negb (isValid model)
  | None => false
  end.

Definition consistencyNoteShown (inputs : Inputs) : bool :=
  match model inputs with
  | Some model => negb (d1Consistent model)
  | None => false
  end.

Definition resultsShown (inputs : Inputs) : bool :=
  match model inputs with
  | Some model => isValid model
  | None => false
  end.

(** ** The first version of the component *)

Module V1.

(** [validateInputs] collects messages in an array. *)
Definition validateInputs (inputs : Inputs) : list string :=
  let errors : list string := [] in
  let errors :=
    if Js.lt (marketPrice inputs) 1 || Js.gt (marketPrice inputs) 500
    then errors ++ ["Market Price must be between $1 and $500"]
    else errors in
  let errors :=
    if Js.lt (dividendAmount inputs) 0 || Js.gt (dividendAmount inputs) 50
    then errors ++ ["Dividend Amount must be between $0 and $50"]
    else errors in
  let errors :=
    if Js.lt (requiredReturn inputs) 0 || Js.gt (requiredReturn inputs) 25
    then errors ++ ["Required Return must be between 0% and 25%"]
    else errors in
  let errors :=
    if Js.lt (expectedDividend inputs) 0 || Js.gt (expectedDividend inputs) 50
    then errors ++ ["Expected Dividend must be between $0 and $50"]
    else errors in
  errors.

Definition model (inputs : Inputs) : option GrowthModelResult :=
  let inputErrors := validateInputs inputs in
  if (0 <? length inputErrors)%nat then None
  else Some (calculateImpliedGrowthRate inputs).

(** [CustomLabel]: a negative value is labelled below its bar. *)
Definition CustomLabel (toFixed : Q -> nat -> string) (props : Props.t)
  : option Text.t :=
  let x := Props.x props in
  let y := Props.y props in
  let width := Props.width props in
  let height := Props.height props in
  let value := Props.value props in
  if Js.not_ value || Js.lt (Js.abs value) (1 # 100) then None
  else
    let isNegative := Js.lt value 0 in
    let labelY := if isNegative then y + height + 15 else y - 8 in
    Some {| Text.x := x + width / 2;
            Text.y := labelY;
            Text.textAnchor := "middle";
            Text.fill := "#000";
            Text.fontSize := "11";
            Text.fontWeight := "bold";
            Text.children :=
              (if isNegative then "-" else "")
              +:+ "$" +:+ toFixed (Js.abs value) 2%nat |}.

(** The vertical position, in percent, of the growth-rate tag:
    [Math.max(20, Math.min(85, 25 + (1.2 - model.impliedGrowth) / 1.2 * 60))]. *)
Definition growthTagTop (model : GrowthModelResult) : Q :=
  JsMath.max 20
    (JsMath.min 85
       (25 + ((12 # 10) - impliedGrowth model) / (12 # 10) * 60)).

End V1.

(** ** The same code over binary64

    JavaScript numbers are IEEE 754 doubles.  Module [Double] transcribes
    [calculateImpliedGrowthRate], [validateInputs] and [model] once more
    over the kernel's binary64 floats, operation by operation, for the
    statements on which rounding decides.  [Math.pow] is only specified up
    to an implementation-defined approximation and is taken as a
    parameter [pow]. *)

Module Double.

Local Open Scope float_scope.

(** [!x]: true for [0], [-0] and [NaN]. *)
Definition not_ (x : float) : bool := (x =? 0) || negb (x =? x).

Record Inputs := mkInputs {
  marketPrice : float;
  dividendAmount : float;
  requiredReturn : float;
  expectedDividend : float
}.

Record CashflowPoint := mkCashflowPoint {
  year : nat;
  dividend : float;
  investment : float;
  total : float
}.

Record GrowthModelResult := mkResult {
  impliedGrowth : float;
  cashflows : list CashflowPoint;
  d1Consistent : bool;
  calculatedD1 : float;
  isValid : bool
}.

(** The local [r] and [impliedGrowth] of the computation. *)
Definition returnFraction (inputs : Inputs) : float :=
  requiredReturn inputs / 100.

Definition growthFraction (inputs : Inputs) : float :=
  let r := requiredReturn inputs / 100 in
  r - (expectedDividend inputs / marketPrice inputs).

Definition cashflowRow (pow : float -> nat -> float)
  (d0 price impliedGrowth : float) (year : nat) : CashflowPoint :=
  match year with
  | O =>
      {| year := year; dividend := 0; investment := - price;
         total := - price |}
  | S _ =>
      let dividend := d0 * pow (1 + impliedGrowth) year in
      {| year := year; dividend := dividend; investment := 0;
         total := dividend |}
  end.

Definition cashflowLoop (pow : float -> nat -> float)
  (d0 price impliedGrowth : float) : list CashflowPoint :=
  fold_left (fun cashflows year =>
               cashflows ++ [cashflowRow pow d0 price impliedGrowth year])
            (seq 0 11) [].

Definition calculateImpliedGrowthRate (pow : float -> nat -> float)
  (inputs : Inputs) : GrowthModelResult :=
  let r := requiredReturn inputs / 100 in
  let d0 := dividendAmount inputs in
  let d1 := expectedDividend inputs in
  let price := marketPrice inputs in
  let impliedGrowth := r - (d1 / price) in
  let impliedGrowthPct := impliedGrowth * 100 in
  let calculatedD1 := d0 * (1 + impliedGrowth) in
  let d1Consistent := abs (d1 - calculatedD1) <? 0.01 in
  let cashflows := cashflowLoop pow d0 price impliedGrowth in
  {| impliedGrowth := impliedGrowthPct;
     cashflows := cashflows;
     d1Consistent := d1Consistent;
     calculatedD1 := calculatedD1;
     isValid := (impliedGrowth <? r) && (0 <=? impliedGrowth) |}.

Definition validateInputs (inputs : Inputs) : gmap string string :=
  let errors : gmap string string := ∅ in
  let errors :=
    if not_ (marketPrice inputs) || (marketPrice inputs <? 1) then
      <["marketPrice" := "Market price must be at least $1"]> errors
    else if 500 <? marketPrice inputs then
      <["marketPrice" := "Market price cannot exceed $500"]> errors
    else errors in
  let errors :=
    if dividendAmount inputs <? 0 then
      <["dividendAmount" := "Current dividend cannot be negative"]> errors
    else if 50 <? dividendAmount inputs then
      <["dividendAmount" := "Current dividend cannot exceed $50"]> errors
    else errors in
  let errors :=
    if not_ (requiredReturn inputs) || (requiredReturn inputs <=? 0) then
      <["requiredReturn" := "Required return must be positive"]> errors
    else if 25 <? requiredReturn inputs then
      <["requiredReturn" := "Required return cannot exceed 25%"]> errors
    else errors in
  let errors :=
    if expectedDividend inputs <? 0 then
      <["expectedDividend" := "Expected dividend cannot be negative"]> errors
    else if 50 <? expectedDividend inputs then
      <["expectedDividend" := "Expected dividend cannot exceed $50"]> errors
    else errors in
  (* Financial logic validation *)
  let errors :=
    if (0 <? requiredReturn inputs) && (0 <? expectedDividend inputs)
       && (0 <? marketPrice inputs) then
      let impliedGrowth :=
        (requiredReturn inputs / 100)
        - (expectedDividend inputs / marketPrice inputs) in
      if requiredReturn inputs / 100 <=? impliedGrowth then
        <["financial" :=
           "These inputs would result in invalid growth rate (g ≥ r)"]> errors
      else errors
    else errors in
  errors.

Definition model (pow : float -> nat -> float) (inputs : Inputs)
  : option GrowthModelResult :=
  let inputErrors := validateInputs inputs in
  if hasErrors inputErrors then None
  else
    let r := requiredReturn inputs / 100 in
    let d0 := dividendAmount inputs in
    let d1 := expectedDividend inputs in
    let price := marketPrice inputs in
    let impliedGrowth := r - (d1 / price) in
    let impliedGrowthPct := impliedGrowth * 100 in
    let calculatedD1 := d0 * (1 + impliedGrowth) in
    let d1Consistent := abs (d1 - calculatedD1) <? 0.01 in
    let cashflows := cashflowLoop pow d0 price impliedGrowth in
    Some {| impliedGrowth := impliedGrowthPct;
            cashflows := cashflows;
            d1Consistent := d1Consistent;
            calculatedD1 := calculatedD1;
            isValid := (impliedGrowth <? r) && (0 <=? impliedGrowth) |}.

(** The documented ranges, as comparisons of doubles. *)
Definition inRange (inputs : Inputs) : Prop :=
  ((1 <=? marketPrice inputs) = true
   /\ (marketPrice inputs <=? 500) = true)
  /\ ((0 <=? dividendAmount inputs) = true
      /\ (dividendAmount inputs <=? 50) = true)
  /\ ((0 <? requiredReturn inputs) = true
      /\ (requiredReturn inputs <=? 25) = true)
  /\ ((0 <=? expectedDividend inputs) = true
      /\ (expectedDividend inputs <=? 50) = true).

(** The default form state, and three in-range states: no expected
    dividend; an expected dividend too small to move [r - D1 / P] away from
    [r]; and an expected dividend that is [marketPrice * requiredReturn /
    100] as the code computes it. *)
Definition exampleInputs : Inputs :=
  {| marketPrice := 54.56; dividendAmount := 3.60;
     requiredReturn := 7.40; expectedDividend := 3.50 |}.

Definition zeroDividend : Inputs :=
  {| marketPrice := 100; dividendAmount := 1;
     requiredReturn := 5; expectedDividend := 0 |}.

Definition tinyDividend : Inputs :=
  {| marketPrice := 100; dividendAmount := 1;
     requiredReturn := 5; expectedDividend := 1e-18 |}.


End Double.

(** * Properties *)

(** ** Comparisons and the loop *)

Section Comparisons.

Lemma lt_true (x y : Q) : Js.lt x y = true <-> x < y.
Proof.
  unfold Js.lt. rewrite Qlt_alt.
  destruct (x ?= y); intuition discriminate.
Qed.

Lemma lt_false (x y : Q) : Js.lt x y = false <-> y <= x.
Proof.
  pose proof (lt_true x y) as H. pose proof (Qnot_lt_le x y) as H1.
  pose proof (Qle_not_lt y x) as H2.
  destruct (Js.lt x y); intuition discriminate.
Qed.

Lemma le_true (x y : Q) : Js.le x y = true <-> x <= y.
Proof. apply Qle_bool_iff. Qed.

Lemma le_false (x y : Q) : Js.le x y = false <-> y < x.
Proof.
  pose proof (le_true x y) as H. pose proof (Qnot_le_lt x y) as H1.
  pose proof (Qlt_not_le y x) as H2.
  destruct (Js.le x y); intuition discriminate.
Qed.

Lemma gt_true (x y : Q) : Js.gt x y = true <-> y < x.
Proof. apply lt_true. Qed.

Lemma gt_false (x y : Q) : Js.gt x y = false <-> x <= y.
Proof. apply lt_false. Qed.

Lemma ge_true (x y : Q) : Js.ge x y = true <-> y <= x.
Proof. apply le_true. Qed.

Lemma ge_false (x y : Q) : Js.ge x y = false <-> x < y.
Proof. apply le_false. Qed.

Lemma not_true (x : Q) : Js.not_ x = true <-> x == 0.
Proof. apply Qeq_bool_iff. Qed.

End Comparisons.

Section Loop.

Context {A B : Type} (f : A -> B).

(** Pushing [f x] for every [x] of a list is mapping [f] over it. *)
Lemma push_loop_map (xs : list A) (acc : list B) :
  fold_left (fun out x => out ++ [f x]) xs acc = acc ++ map f xs.
Proof.
  revert acc. induction xs as [|x xs IH]; intros acc; simpl.
  - now rewrite app_nil_r.
  - rewrite IH, <- app_assoc. reflexivity.
Qed.

End Loop.

Lemma cashflowLoop_map (d0 price g : Q) :
  cashflowLoop d0 price g = map (cashflowRow d0 price g) (seq 0 11).
Proof. unfold cashflowLoop. now rewrite push_loop_map. Qed.

Lemma cashflowLoop_lookup (d0 price g : Q) (y : nat) :
  (y <= 10)%nat ->
  cashflowLoop d0 price g !! y = Some (cashflowRow d0 price g y).
Proof.
  intros Hy. rewrite cashflowLoop_map, list_lookup_fmap.
  rewrite lookup_seq_lt by lia. reflexivity.
Qed.

Lemma cashflowLoop_lookup_inv (d0 price g : Q) (y : nat) (row : CashflowPoint) :
  cashflowLoop d0 price g !! y = Some row ->
  (y <= 10)%nat /\ row = cashflowRow d0 price g y.
Proof.
  intros H. assert (Hlt : (y < 11)%nat).
  { apply lookup_lt_Some in H. rewrite cashflowLoop_map in H.
    now rewrite length_map, length_seq in H. }
  split; [lia|]. rewrite cashflowLoop_lookup in H by lia. congruence.
Qed.

Lemma cashflowRow_year (d0 price g : Q) (y : nat) :
  year (cashflowRow d0 price g y) = y.
Proof. now destruct y. Qed.

(** ** The inline [model] computes what [calculateImpliedGrowthRate] does *)

Lemma model_unfold (inputs : Inputs) :
  model inputs =
  if hasErrors (validateInputs inputs) then None
  else Some (calculateImpliedGrowthRate inputs).
Proof. reflexivity. Qed.

Lemma hasErrors_false (errors : gmap string string) :
  hasErrors errors = false <-> errors = ∅.
Proof.
  unfold hasErrors. rewrite negb_false_iff, bool_decide_eq_true.
  apply map_size_empty_iff.
Qed.

Lemma model_Some (inputs : Inputs) (res : GrowthModelResult) :
  model inputs = Some res <->
  validateInputs inputs = ∅ /\ res = calculateImpliedGrowthRate inputs.
Proof.
  rewrite model_unfold, <- hasErrors_false.
  destruct (hasErrors (validateInputs inputs)); split.
  - discriminate.
  - intros [? _]; discriminate.
  - intros [= <-]. auto.
  - intros [_ ->]. reflexivity.
Qed.

Lemma resultOf_eq (inputs : Inputs) (res : GrowthModelResult) :
  resultOf inputs res -> res = calculateImpliedGrowthRate inputs.
Proof. intros [H|H]; [exact H | now apply model_Some in H]. Qed.

Lemma isValid_eq (inputs : Inputs) :
  isValid (calculateImpliedGrowthRate inputs)
  = Js.lt (growthFraction inputs) (requiredReturn inputs / 100)
    && Js.ge (growthFraction inputs) 0.
Proof. reflexivity. Qed.

Lemma impliedGrowth_eq (inputs : Inputs) :
  impliedGrowth (calculateImpliedGrowthRate inputs)
  = growthFraction inputs * 100.
Proof. reflexivity. Qed.

(** The worked example: [g] is about 0.00987, the growth rate is usable
    and the expected dividend does not match the one derived from the
    current dividend. *)
Example worked_example :
  Qred (growthFraction exampleInputs) = 3359 # 341000
  /\ isValid (calculateImpliedGrowthRate exampleInputs) = true
  /\ d1Consistent (calculateImpliedGrowthRate exampleInputs) = false
  /\ validateInputs exampleInputs = ∅.
Proof. vm_compute. repeat split; reflexivity. Qed.

(** ** The growth rate and the two flags *)

(** C1: with a positive market price the returned [impliedGrowth] is
    [(r - D1/P) * 100] for [r = requiredReturn / 100], that is
    [100 * (requiredReturn/100 - expectedDividend/marketPrice)]. *)
Theorem impliedGrowth_formula (inputs : Inputs) (res : GrowthModelResult) :
  0 < marketPrice inputs ->
  resultOf inputs res ->
  impliedGrowth res
  = (requiredReturn inputs / 100
     - expectedDividend inputs / marketPrice inputs) * 100
  /\ impliedGrowth res
     == 100 * (requiredReturn inputs / 100
               - expectedDividend inputs / marketPrice inputs).
Proof.
  intros _ Hres. apply resultOf_eq in Hres. subst res. simpl.
  split; [reflexivity | ring].
Qed.

Lemma impliedGrowth_formula_witness :
  impliedGrowth (calculateImpliedGrowthRate exampleInputs)
  == 100 * ((740 # 100) / 100 - (350 # 100) / (5456 # 100)).
Proof.
  apply (impliedGrowth_formula exampleInputs).
  - reflexivity.
  - left. reflexivity.
Defined.

(** C2: with a positive market price [isValid] is true exactly when
    [0 <= g] and [g < requiredReturn / 100]. *)
Theorem isValid_iff (inputs : Inputs) (res : GrowthModelResult) :
  0 < marketPrice inputs ->
  resultOf inputs res ->
  isValid res = true <->
  0 <= growthFraction inputs
  /\ growthFraction inputs < requiredReturn inputs / 100.
Proof.
  intros _ Hres. apply resultOf_eq in Hres. subst res. simpl.
  rewrite andb_true_iff, lt_true, ge_true. unfold growthFraction.
  tauto.
Qed.

Lemma isValid_iff_witness :
  isValid (calculateImpliedGrowthRate exampleInputs) = true <->
  0 <= growthFraction exampleInputs
  /\ growthFraction exampleInputs < requiredReturn exampleInputs / 100.
Proof.
  apply (isValid_iff exampleInputs).
  - reflexivity.
  - left. reflexivity.
Defined.

(** C6: [calculatedD1] is [dividendAmount * (1 + g)], and [d1Consistent] is
    true exactly when [|expectedDividend - dividendAmount * (1 + g)|] is
    strictly below the fixed tolerance [0.01]. *)
Theorem d1Consistent_iff (inputs : Inputs) (res : GrowthModelResult) :
  0 < marketPrice inputs ->
  resultOf inputs res ->
  calculatedD1 res = dividendAmount inputs * (1 + growthFraction inputs)
  /\ (d1Consistent res = true <->
      Qabs (expectedDividend inputs
            - dividendAmount inputs * (1 + growthFraction inputs))
      < 1 # 100).
Proof.
  intros _ Hres. apply resultOf_eq in Hres. subst res. simpl.
  split; [reflexivity|]. now rewrite lt_true.
Qed.

Lemma d1Consistent_iff_witness :
  calculatedD1 (calculateImpliedGrowthRate exampleInputs)
  = dividendAmount exampleInputs * (1 + growthFraction exampleInputs)
  /\ (d1Consistent (calculateImpliedGrowthRate exampleInputs) = true <->
      Qabs (expectedDividend exampleInputs
            - dividendAmount exampleInputs
              * (1 + growthFraction exampleInputs))
      < 1 # 100).
Proof.
  apply (d1Consistent_iff exampleInputs).
  - reflexivity.
  - left. reflexivity.
Defined.

(** ** The cash-flow table *)

Lemma cashflows_eq (inputs : Inputs) (res : GrowthModelResult) :
  resultOf inputs res ->
  cashflows res
  = map (cashflowRow (dividendAmount inputs) (marketPrice inputs)
                     (growthFraction inputs))
        (seq 0 11).
Proof.
  intros Hres. apply resultOf_eq in Hres. subst res. simpl.
  apply cashflowLoop_map.
Qed.

Lemma cashflowRow_proper (d0 d0' p p' g g' : Q) (y : nat) :
  d0 == d0' -> p == p' -> g == g' ->
  sameRow (cashflowRow d0 p g y) (cashflowRow d0' p' g' y).
Proof.
  intros Hd Hp Hg.
  destruct y as [|y]; unfold sameRow, cashflowRow, Js.pow;
    cbn [year dividend investment total].
  - now rewrite Hp.
  - now rewrite Hd, Hg.
Qed.

Lemma growthFraction_proper (a b : Inputs) :
  sameInputs a b -> growthFraction a == growthFraction b.
Proof.
  intros (Hp & _ & Hr & He). unfold growthFraction. now rewrite Hp, Hr, He.
Qed.

(** C4: with a positive market price the table has exactly 11 rows, their
    [year] fields are 0, 1, ..., 10 in this order (hence strictly
    increasing), and the table is a function of the four inputs: inputs
    holding the same numbers give the same rows. *)
Theorem cashflows_years (inputs : Inputs) (res : GrowthModelResult) :
  0 < marketPrice inputs ->
  resultOf inputs res ->
  length (cashflows res) = 11%nat
  /\ map year (cashflows res)
     = [0; 1; 2; 3; 4; 5; 6; 7; 8; 9; 10]%nat
  /\ (forall (a b : nat) (ra rb : CashflowPoint),
        (a < b)%nat ->
        cashflows res !! a = Some ra -> cashflows res !! b = Some rb ->
        (year ra < year rb)%nat)
  /\ (forall (inputs' : Inputs) (res' : GrowthModelResult),
        sameInputs inputs inputs' -> resultOf inputs' res' ->
        Forall2 sameRow (cashflows res) (cashflows res')).
Proof.
  intros _ Hres. pose proof (cashflows_eq _ _ Hres) as Hcf.
  repeat split.
  - rewrite Hcf. reflexivity.
  - rewrite Hcf. reflexivity.
  - intros a b ra rb Hab Ha Hb. rewrite Hcf, <- cashflowLoop_map in Ha, Hb.
    apply cashflowLoop_lookup_inv in Ha, Hb.
    destruct Ha as [_ ->], Hb as [_ ->]. now rewrite !cashflowRow_year.
  - intros inputs' res' Hsame Hres'.
    rewrite Hcf, (cashflows_eq _ _ Hres'). apply Forall2_fmap, Forall_Forall2_diag.
    apply Forall_forall. intros y _.
    pose proof (growthFraction_proper _ _ Hsame) as Hg.
    destruct Hsame as (Hp & Hd & _ & _). now apply cashflowRow_proper.
Qed.

Lemma cashflows_years_witness :
  length (cashflows (calculateImpliedGrowthRate exampleInputs)) = 11%nat
  /\ map year (cashflows (calculateImpliedGrowthRate exampleInputs))
     = [0; 1; 2; 3; 4; 5; 6; 7; 8; 9; 10]%nat.
Proof.
  destruct (cashflows_years exampleInputs
              (calculateImpliedGrowthRate exampleInputs)) as (Hl & Hy & _).
  - reflexivity.
  - left. reflexivity.
  - split; [exact Hl | exact Hy].
Defined.

(** C5: with a positive market price the row of year 0 has dividend 0 and
    investment [- marketPrice]; the row of every year [y] in 1..10 has
    dividend [dividendAmount * (1 + g) ^ y] and investment 0; and in every
    row [total] is [dividend + investment]. *)
Theorem cashflow_rows (inputs : Inputs) (res : GrowthModelResult) :
  0 < marketPrice inputs ->
  resultOf inputs res ->
  (exists row0 : CashflowPoint,
      cashflows res !! 0%nat = Some row0
      /\ dividend row0 = 0 /\ investment row0 = - marketPrice inputs)
  /\ (forall y : nat, (1 <= y <= 10)%nat ->
      exists row : CashflowPoint,
        cashflows res !! y = Some row
        /\ dividend row
           = dividendAmount inputs * (1 + growthFraction inputs) ^ Z.of_nat y
        /\ investment row = 0)
  /\ (forall (y : nat) (row : CashflowPoint),
        cashflows res !! y = Some row ->
        total row == dividend row + investment row).
Proof.
  intros _ Hres. pose proof (cashflows_eq _ _ Hres) as Hcf.
  rewrite <- cashflowLoop_map in Hcf. rewrite Hcf. repeat split.
  - eexists. split; [apply cashflowLoop_lookup; lia|]. split; reflexivity.
  - intros y [Hy1 Hy2]. eexists. split; [apply cashflowLoop_lookup; lia|].
    destruct y as [|y]; [lia|]. split; reflexivity.
  - intros y row Hrow. apply cashflowLoop_lookup_inv in Hrow.
    destruct Hrow as [_ ->]. destruct y; simpl; ring.
Qed.

Lemma cashflow_rows_witness :
  exists row0 : CashflowPoint,
    cashflows (calculateImpliedGrowthRate exampleInputs) !! 0%nat = Some row0
    /\ dividend row0 = 0 /\ investment row0 = - (5456 # 100).
Proof.
  destruct (cashflow_rows exampleInputs
              (calculateImpliedGrowthRate exampleInputs)) as (H0 & _).
  - reflexivity.
  - left. reflexivity.
  - exact H0.
Defined.

(** ** Validation *)

Lemma quotient_pos (d p : Q) : 0 < p -> (0 < d / p <-> 0 < d).
Proof.
  intros Hp. split; intros H.
  - assert (E : d == d / p * p) by (field; lra). rewrite E.
    apply Qmult_lt_0_compat; assumption.
  - apply Qlt_shift_div_l; [assumption | lra].
Qed.

Ltac bool_to_Q :=
  repeat match goal with
    | H : _ /\ _ |- _ => destruct H
    | H : _ || _ = false |- _ => apply orb_false_iff in H
    | H : _ && _ = true |- _ => apply andb_true_iff in H
    | H : Js.lt _ _ = true |- _ => apply lt_true in H
    | H : Js.lt _ _ = false |- _ => apply lt_false in H
    | H : Js.gt _ _ = true |- _ => apply gt_true in H
    | H : Js.gt _ _ = false |- _ => apply gt_false in H
    | H : Js.le _ _ = true |- _ => apply le_true in H
    | H : Js.le _ _ = false |- _ => apply le_false in H
    | H : Js.ge _ _ = true |- _ => apply ge_true in H
    | H : Js.ge _ _ = false |- _ => apply ge_false in H
    end.

Section ErrorObject.

Context (k : string) (v1 v2 : string) (m : gmap string string).

(** One field test of [validateInputs]: [if (c1) errors.k = v1; else if
    (c2) errors.k = v2]. *)
Lemma field_test_empty (c1 c2 : bool) :
  (if c1 then <[k := v1]> m else if c2 then <[k := v2]> m else m) = ∅ <->
  c1 = false /\ c2 = false /\ m = ∅.
Proof.
  destruct c1, c2; split; try (intros (? & ? & ?); discriminate);
    try (intros H; exfalso; exact (insert_non_empty _ _ _ H)).
  - intros H. auto.
  - intros (_ & _ & H). exact H.
Qed.

Lemma field_test_lookup_ne (c1 c2 : bool) (k' : string) :
  k <> k' ->
  (if c1 then <[k := v1]> m else if c2 then <[k := v2]> m else m) !! k'
  = m !! k'.
Proof.
  intros Hk. destruct c1, c2; try reflexivity;
    now rewrite lookup_insert_ne.
Qed.

End ErrorObject.

(** The derived-invalidity entry is written only behind its guard. *)
Lemma financial_only_if (inputs : Inputs) (msg : string) :
  validateInputs inputs !! "financial" = Some msg ->
  0 < requiredReturn inputs /\ 0 < expectedDividend inputs
  /\ 0 < marketPrice inputs
  /\ requiredReturn inputs / 100 <= growthFraction inputs.
Proof.
  unfold validateInputs, growthFraction. cbv zeta. intros H.
  destruct (Js.gt (requiredReturn inputs) 0
            && Js.gt (expectedDividend inputs) 0
            && Js.gt (marketPrice inputs) 0) eqn:Hguard;
    [destruct (Js.ge _ (requiredReturn inputs / 100)) eqn:Hge in H|].
  - bool_to_Q. auto.
  - exfalso. rewrite !field_test_lookup_ne in H by discriminate.
    discriminate.
  - exfalso. rewrite !field_test_lookup_ne in H by discriminate.
    discriminate.
Qed.

(** An empty error object means every range test and the financial test
    passed. *)
Lemma validateInputs_empty_inv (inputs : Inputs) :
  validateInputs inputs = ∅ ->
  inRange inputs
  /\ (0 < expectedDividend inputs ->
      growthFraction inputs < requiredReturn inputs / 100).
Proof.
  unfold validateInputs, inRange, growthFraction. cbv zeta. intros H.
  destruct (Js.gt (requiredReturn inputs) 0
            && Js.gt (expectedDividend inputs) 0
            && Js.gt (marketPrice inputs) 0) eqn:Hguard;
    [destruct (Js.ge _ (requiredReturn inputs / 100)) eqn:Hge in H|].
  - exfalso. exact (insert_non_empty _ _ _ H).
  - rewrite !field_test_empty in H. bool_to_Q.
    repeat split; try assumption. intros _. assumption.
  - rewrite !field_test_empty in H. bool_to_Q.
    repeat split; try assumption. intros Hd. exfalso.
    apply andb_false_iff in Hguard. destruct Hguard as [Hguard|Hguard];
      [apply andb_false_iff in Hguard; destruct Hguard as [Hguard|Hguard]|];
      apply gt_false in Hguard; lra.
Qed.

(** ** Where rounding decides: the financial test and the null model *)

Section DoubleOrder.

Local Open Scope float_scope.

Ltac sf_constants :=
  let one := eval vm_compute in (Prim2SF 1) in
  let zero := eval vm_compute in (Prim2SF 0) in
  change (Prim2SF 1) with one; change (Prim2SF 0) with zero.

(** A double that is at least 1 is positive. *)
Lemma double_ge_one_pos (x : float) :
  (1 <=? x) = true -> (0 <? x) = true.
Proof.
  rewrite FloatAxioms.leb_spec, FloatAxioms.ltb_spec. sf_constants.
  unfold SFleb, SFltb.
  destruct (Prim2SF x) as [s|s| |s m e]; cbn [SFcompare];
    try destruct s; try discriminate; reflexivity.
Qed.


End DoubleOrder.

Lemma double_model_unfold (pow : float -> nat -> float)
  (inputs : Double.Inputs) :
  Double.model pow inputs =
  if hasErrors (Double.validateInputs inputs) then None
  else Some (Double.calculateImpliedGrowthRate pow inputs).
Proof. reflexivity. Qed.

Lemma double_model_None (pow : float -> nat -> float)
  (inputs : Double.Inputs) :
  Double.validateInputs inputs <> ∅ -> Double.model pow inputs = None.
Proof.
  intros H. rewrite double_model_unfold.
  destruct (hasErrors (Double.validateInputs inputs)) eqn:E;
    [reflexivity|]. apply hasErrors_false in E. contradiction.
Qed.

(** The financial entry is written exactly behind its guard and test. *)
Lemma double_financial_lookup (inputs : Double.Inputs) :
  Double.validateInputs inputs !! "financial"
  = if PrimFloat.ltb 0 (Double.requiredReturn inputs)
       && PrimFloat.ltb 0 (Double.expectedDividend inputs)
       && PrimFloat.ltb 0 (Double.marketPrice inputs)
    then
      if PrimFloat.leb (Double.returnFraction inputs)
           (Double.growthFraction inputs)
      then Some "These inputs would result in invalid growth rate (g ≥ r)"
      else None
    else None.
Proof.
  unfold Double.validateInputs, Double.returnFraction, Double.growthFraction.
  cbv zeta.
  destruct (PrimFloat.ltb 0 (Double.requiredReturn inputs)
            && PrimFloat.ltb 0 (Double.expectedDividend inputs)
            && PrimFloat.ltb 0 (Double.marketPrice inputs));
    [destruct (PrimFloat.leb _ _)|].
  - now rewrite lookup_insert_eq.
  - rewrite !field_test_lookup_ne by discriminate. apply lookup_empty.
  - rewrite !field_test_lookup_ne by discriminate. apply lookup_empty.
Qed.

(** C3, as stated, fails: [Double.zeroDividend] lies within the documented
    ranges and its computed [g] is [>= requiredReturn / 100] (it equals
    it), yet [validateInputs] returns the empty object, without a
    [financial] entry, so the model is computed on it. *)
Lemma validation_misses_zero_dividend :
  Double.inRange Double.zeroDividend
  /\ PrimFloat.leb (Double.returnFraction Double.zeroDividend)
       (Double.growthFraction Double.zeroDividend) = true
  /\ Double.validateInputs Double.zeroDividend = ∅
  /\ Double.validateInputs Double.zeroDividend !! "financial" = None
  /\ hasErrors (Double.validateInputs Double.zeroDividend) = false.
Proof.
  assert (E : Double.validateInputs Double.zeroDividend = ∅)
    by (vm_compute; reflexivity).
  split; [unfold Double.inRange; repeat split; vm_compute; reflexivity|].
  split; [vm_compute; reflexivity|]. split; [exact E|].
  rewrite E. split; [apply lookup_empty | reflexivity].
Qed.

(** C3, amended: for an input within the documented ranges with
    [expectedDividend > 0] whose computed [g] is [>= requiredReturn / 100],
    [validateInputs] stores the [financial] entry, so the error object is
    not empty and [model] is [null]; when [expectedDividend > 0] does not
    hold (as for [expectedDividend = 0]) the test is skipped and no
    [financial] entry is stored. *)
Theorem financial_rejection (inputs : Double.Inputs) :
  Double.inRange inputs ->
  (PrimFloat.ltb 0 (Double.expectedDividend inputs) = true ->
   PrimFloat.leb (Double.returnFraction inputs)
     (Double.growthFraction inputs) = true ->
   Double.validateInputs inputs !! "financial"
   = Some "These inputs would result in invalid growth rate (g ≥ r)"
   /\ Double.validateInputs inputs <> ∅
   /\ forall pow : float -> nat -> float, Double.model pow inputs = None)
  /\ (PrimFloat.ltb 0 (Double.expectedDividend inputs) = false ->
      Double.validateInputs inputs !! "financial" = None).
Proof.
  intros ((Hp & _) & _ & (Hr & _) & _).
  apply double_ge_one_pos in Hp. split.
  - intros Hd Hge.
    assert (Hf : Double.validateInputs inputs !! "financial"
                 = Some "These inputs would result in invalid growth rate (g ≥ r)").
    { now rewrite double_financial_lookup, Hr, Hd, Hp, Hge. }
    assert (Hne : Double.validateInputs inputs <> ∅).
    { intros E. rewrite E, lookup_empty in Hf. discriminate. }
    split; [exact Hf|]. split; [exact Hne|].
    intros pow. now apply double_model_None.
  - intros Hd. rewrite double_financial_lookup, Hd, andb_false_r.
    reflexivity.
Qed.

Lemma financial_rejection_witness :
  Double.validateInputs Double.tinyDividend !! "financial"
  = Some "These inputs would result in invalid growth rate (g ≥ r)"
  /\ Double.validateInputs Double.tinyDividend <> ∅.
Proof.
  destruct (financial_rejection Double.tinyDividend) as [H _].
  - unfold Double.inRange. repeat split; vm_compute; reflexivity.
  - destruct H as (H1 & H2 & _).
    + vm_compute. reflexivity.
    + vm_compute. reflexivity.
    + split; [exact H1 | exact H2].
Defined.







(** ** Consequences for the growth rate *)



(** C9: an input that passes validation (empty error object) and has
    [expectedDividend > 0] has [g < requiredReturn / 100]; [model] then
    holds a result whose [isValid] is the outcome of the test [g >= 0]. *)
Theorem validated_growth_below_return (inputs : Inputs) :
  validateInputs inputs = ∅ ->
  0 < expectedDividend inputs ->
  growthFraction inputs < requiredReturn inputs / 100
  /\ exists res : GrowthModelResult,
       model inputs = Some res
       /\ isValid res = Js.ge (growthFraction inputs) 0
       /\ (isValid res = true <-> 0 <= growthFraction inputs).
Proof.
  intros Hv Hd. destruct (validateInputs_empty_inv _ Hv) as [_ Hlt].
  specialize (Hlt Hd). split; [exact Hlt|].
  exists (calculateImpliedGrowthRate inputs).
  split; [now apply model_Some|].
  assert (E : isValid (calculateImpliedGrowthRate inputs)
              = Js.ge (growthFraction inputs) 0).
  { rewrite isValid_eq. apply lt_true in Hlt. now rewrite Hlt. }
  split; [exact E|]. rewrite E. apply ge_true.
Qed.

Lemma validated_growth_below_return_witness :
  growthFraction exampleInputs < requiredReturn exampleInputs / 100
  /\ exists res : GrowthModelResult,
       model exampleInputs = Some res
       /\ isValid res = Js.ge (growthFraction exampleInputs) 0
       /\ (isValid res = true <-> 0 <= growthFraction exampleInputs).
Proof.
  apply (validated_growth_below_return exampleInputs).
  - vm_compute. reflexivity.
  - reflexivity.
Defined.

Lemma pow_succ (a : Q) (y : nat) :
  Js.pow a (S y) == Js.pow a y * a.
Proof.
  unfold Js.pow. rewrite Nat2Z.inj_succ, <- Z.add_1_r.
  rewrite Qpower_plus' by lia. now rewrite Qpower_1_r.
Qed.

Lemma pow_nonneg (a : Q) (y : nat) : 0 <= a -> 0 <= Js.pow a y.
Proof. intros Ha. now apply Qpower_0_le. Qed.

(** On the [model] path validation has already excluded a negative current
    dividend. *)
Lemma model_dividend_nonneg (inputs : Inputs) (res : GrowthModelResult) :
  model inputs = Some res -> 0 <= dividendAmount inputs.
Proof.
  intros H. apply model_Some in H. destruct H as [Hv _].
  apply validateInputs_empty_inv in Hv.
  destruct Hv as [(_ & (Hd & _) & _) _]. exact Hd.
Qed.

(** C10: with a positive market price, a non-negative current dividend
    (the documented domain of the field, which both callers enforce before
    the computation runs) and [g >= 0], the growth factor [1 + g] is at
    least 1 and the projected dividends never decrease: for every year [y]
    in 1..9 the dividend of year [y + 1] is not below that of year [y]. *)
Theorem dividends_nondecreasing (inputs : Inputs) (res : GrowthModelResult) :
  0 < marketPrice inputs ->
  0 <= dividendAmount inputs ->
  0 <= growthFraction inputs ->
  resultOf inputs res ->
  1 <= 1 + growthFraction inputs
  /\ forall y : nat, (1 <= y <= 9)%nat ->
     exists r1 r2 : CashflowPoint,
       cashflows res !! y = Some r1
       /\ cashflows res !! S y = Some r2
       /\ dividend r1
          = dividendAmount inputs
            * (1 + growthFraction inputs) ^ Z.of_nat y
       /\ dividend r2
          = dividendAmount inputs
            * (1 + growthFraction inputs) ^ Z.of_nat (S y)
       /\ dividend r1 <= dividend r2.
Proof.
  intros _ Hd Hg Hres. split; [lra|]. intros y [Hy1 Hy2].
  pose proof (cashflows_eq _ _ Hres) as Hcf.
  rewrite <- cashflowLoop_map in Hcf. rewrite Hcf.
  eexists. eexists.
  split; [apply cashflowLoop_lookup; lia|].
  split; [apply cashflowLoop_lookup; lia|].
  destruct y as [|y]; [lia|]. unfold cashflowRow. cbn [dividend].
  split; [reflexivity|]. split; [reflexivity|].
  set (a := 1 + growthFraction inputs).
  assert (Ha : 1 <= a) by (unfold a; lra).
  assert (Hpow : 0 <= Js.pow a (S y)) by (apply pow_nonneg; lra).
  rewrite (pow_succ a (S y)).
  assert (Hprod : 0 <= dividendAmount inputs * Js.pow a (S y))
    by (apply Qmult_le_0_compat; assumption).
  nra.
Qed.

Lemma dividends_nondecreasing_witness :
  1 <= 1 + growthFraction exampleInputs
  /\ forall y : nat, (1 <= y <= 9)%nat ->
     exists r1 r2 : CashflowPoint,
       cashflows (calculateImpliedGrowthRate exampleInputs) !! y = Some r1
       /\ cashflows (calculateImpliedGrowthRate exampleInputs) !! S y
          = Some r2
       /\ dividend r1
          = dividendAmount exampleInputs
            * (1 + growthFraction exampleInputs) ^ Z.of_nat y
       /\ dividend r2
          = dividendAmount exampleInputs
            * (1 + growthFraction exampleInputs) ^ Z.of_nat (S y)
       /\ dividend r1 <= dividend r2.
Proof.
  apply (dividends_nondecreasing exampleInputs).
  - reflexivity.
  - vm_compute. discriminate.
  - vm_compute. discriminate.
  - left. reflexivity.
Defined.

(** * Further properties of the code *)

(** ** What a valid result says about the inputs *)

(** X2: with a positive market price a valid result needs a positive
    expected dividend, a dividend-to-price quotient not above the required
    return [requiredReturn / 100], and a positive required return. *)
Theorem isValid_requires (inputs : Inputs) (res : GrowthModelResult) :
  0 < marketPrice inputs ->
  resultOf inputs res ->
  isValid res = true ->
  0 < expectedDividend inputs
  /\ expectedDividend inputs / marketPrice inputs
     <= requiredReturn inputs / 100
  /\ 0 < requiredReturn inputs.
Proof.
  intros Hp Hres Hv. apply resultOf_eq in Hres. subst res.
  rewrite isValid_eq, andb_true_iff, lt_true, ge_true in Hv.
  unfold growthFraction in Hv. destruct Hv as [Hlt Hge].
  assert (Hq : 0 < expectedDividend inputs / marketPrice inputs) by lra.
  split; [now apply (quotient_pos _ _ Hp)|]. split; [lra|].
  assert (Hr : 0 < requiredReturn inputs / 100) by lra.
  apply Qnot_le_lt. intros Hneg.
  assert (requiredReturn inputs / 100 <= 0)
    by (apply Qle_shift_div_r; lra).
  lra.
Qed.

Lemma isValid_requires_witness :
  0 < expectedDividend exampleInputs
  /\ expectedDividend exampleInputs / marketPrice exampleInputs
     <= requiredReturn exampleInputs / 100
  /\ 0 < requiredReturn exampleInputs.
Proof.
  apply (isValid_requires exampleInputs
           (calculateImpliedGrowthRate exampleInputs)).
  - reflexivity.
  - left. reflexivity.
  - reflexivity.
Defined.

(** X3: the dividend projected for year 1 is [calculatedD1], so
    [d1Consistent] compares the expected dividend with the first bar of
    the chart. *)
Theorem first_dividend_is_calculatedD1
  (inputs : Inputs) (res : GrowthModelResult) :
  0 < marketPrice inputs ->
  resultOf inputs res ->
  exists row1 : CashflowPoint,
    cashflows res !! 1%nat = Some row1
    /\ dividend row1 == calculatedD1 res
    /\ (d1Consistent res = true <->
        Qabs (expectedDividend inputs - dividend row1) < 1 # 100).
Proof.
  intros _ Hres. pose proof (cashflows_eq _ _ Hres) as Hcf.
  rewrite <- cashflowLoop_map in Hcf. apply resultOf_eq in Hres.
  exists (cashflowRow (dividendAmount inputs) (marketPrice inputs)
            (growthFraction inputs) 1).
  split; [rewrite Hcf; apply cashflowLoop_lookup; lia|].
  assert (E : dividend (cashflowRow (dividendAmount inputs)
                          (marketPrice inputs) (growthFraction inputs) 1)
              == calculatedD1 res).
  { subst res. unfold cashflowRow, Js.pow. cbn [dividend calculatedD1].
    change (Z.of_nat 1) with 1%Z. rewrite Qpower_1_r. reflexivity. }
  split; [exact E|]. rewrite E. subst res.
  unfold calculateImpliedGrowthRate. cbn [d1Consistent calculatedD1].
  apply lt_true.
Qed.

Lemma first_dividend_is_calculatedD1_witness :
  exists row1 : CashflowPoint,
    cashflows (calculateImpliedGrowthRate exampleInputs) !! 1%nat = Some row1
    /\ dividend row1 == calculatedD1 (calculateImpliedGrowthRate exampleInputs)
    /\ (d1Consistent (calculateImpliedGrowthRate exampleInputs) = true <->
        Qabs (expectedDividend exampleInputs - dividend row1) < 1 # 100).
Proof.
  apply (first_dividend_is_calculatedD1 exampleInputs).
  - reflexivity.
  - left. reflexivity.
Defined.





(** ** What [validateInputs] reports for each field *)

Section FieldLookup.

Context (k : string) (v1 v2 : string) (m : gmap string string).

Lemma field_test_lookup_eq (c1 c2 : bool) :
  (if c1 then <[k := v1]> m else if c2 then <[k := v2]> m else m) !! k
  = if c1 then Some v1 else if c2 then Some v2 else m !! k.
Proof. destruct c1, c2; now rewrite ?lookup_insert_eq. Qed.

End FieldLookup.

(** The financial step does not touch the entries of the four fields. *)
Lemma validateInputs_lookup_field (inputs : Inputs) (k : string) :
  k <> "financial" ->
  validateInputs inputs !! k
  = (let errors : gmap string string := ∅ in
     let errors :=
       if Js.not_ (marketPrice inputs) || Js.lt (marketPrice inputs) 1 then
         <["marketPrice" := "Market price must be at least $1"]> errors
       else if Js.gt (marketPrice inputs) 500 then
         <["marketPrice" := "Market price cannot exceed $500"]> errors
       else errors in
     let errors :=
       if Js.lt (dividendAmount inputs) 0 then
         <["dividendAmount" := "Current dividend cannot be negative"]> errors
       else if Js.gt (dividendAmount inputs) 50 then
         <["dividendAmount" := "Current dividend cannot exceed $50"]> errors
       else errors in
     let errors :=
       if Js.not_ (requiredReturn inputs) || Js.le (requiredReturn inputs) 0
       then <["requiredReturn" := "Required return must be positive"]> errors
       else if Js.gt (requiredReturn inputs) 25 then
         <["requiredReturn" := "Required return cannot exceed 25%"]> errors
       else errors in
     let errors :=
       if Js.lt (expectedDividend inputs) 0 then
         <["expectedDividend" := "Expected dividend cannot be negative"]>
           errors
       else if Js.gt (expectedDividend inputs) 50 then
         <["expectedDividend" := "Expected dividend cannot exceed $50"]>
           errors
       else errors in
     errors) !! k.
Proof.
  intros Hk. unfold validateInputs. cbv zeta.
  destruct (Js.gt (requiredReturn inputs) 0
            && Js.gt (expectedDividend inputs) 0
            && Js.gt (marketPrice inputs) 0); [|reflexivity].
  destruct (Js.ge _ (requiredReturn inputs / 100)); [|reflexivity].
  now rewrite lookup_insert_ne by congruence.
Qed.

Lemma validateInputs_marketPrice (inputs : Inputs) :
  validateInputs inputs !! "marketPrice"
  = if Js.not_ (marketPrice inputs) || Js.lt (marketPrice inputs) 1
    then Some "Market price must be at least $1"
    else if Js.gt (marketPrice inputs) 500
         then Some "Market price cannot exceed $500"
         else None.
Proof.
  rewrite validateInputs_lookup_field by discriminate. cbv zeta.
  rewrite !field_test_lookup_ne by discriminate.
  now rewrite field_test_lookup_eq, lookup_empty.
Qed.

Lemma validateInputs_dividendAmount (inputs : Inputs) :
  validateInputs inputs !! "dividendAmount"
  = if Js.lt (dividendAmount inputs) 0
    then Some "Current dividend cannot be negative"
    else if Js.gt (dividendAmount inputs) 50
         then Some "Current dividend cannot exceed $50"
         else None.
Proof.
  rewrite validateInputs_lookup_field by discriminate. cbv zeta.
  rewrite !field_test_lookup_ne by discriminate.
  rewrite field_test_lookup_eq.
  now rewrite field_test_lookup_ne, lookup_empty by discriminate.
Qed.

Lemma validateInputs_requiredReturn (inputs : Inputs) :
  validateInputs inputs !! "requiredReturn"
  = if Js.not_ (requiredReturn inputs) || Js.le (requiredReturn inputs) 0
    then Some "Required return must be positive"
    else if Js.gt (requiredReturn inputs) 25
         then Some "Required return cannot exceed 25%"
         else None.
Proof.
  rewrite validateInputs_lookup_field by discriminate. cbv zeta.
  rewrite field_test_lookup_ne by discriminate.
  rewrite field_test_lookup_eq.
  now rewrite !field_test_lookup_ne, lookup_empty by discriminate.
Qed.

Lemma validateInputs_expectedDividend (inputs : Inputs) :
  validateInputs inputs !! "expectedDividend"
  = if Js.lt (expectedDividend inputs) 0
    then Some "Expected dividend cannot be negative"
    else if Js.gt (expectedDividend inputs) 50
         then Some "Expected dividend cannot exceed $50"
         else None.
Proof.
  rewrite validateInputs_lookup_field by discriminate. cbv zeta.
  rewrite field_test_lookup_eq.
  now rewrite !field_test_lookup_ne, lookup_empty by discriminate.
Qed.

Lemma not_false (x : Q) : Js.not_ x = false <-> ~ x == 0.
Proof.
  pose proof (not_true x) as H.
  destruct (Js.not_ x); intuition discriminate.
Qed.

Ltac field_cases :=
  repeat match goal with
    | |- context [if ?c then _ else _] => destruct c eqn:?
    end;
  repeat match goal with
    | H : _ || _ = true |- _ => apply orb_true_iff in H; destruct H
    | H : Js.not_ _ = true |- _ => apply not_true in H
    | H : Js.not_ _ = false |- _ => apply not_false in H
    end;
  bool_to_Q;
  repeat split; intros; try discriminate; try congruence; try lra.

(** X5: an input field has no entry in the error object exactly when it is
    within its bounds, the bounds themselves included: market price in
    [1, 500], current and expected dividend in [0, 50], required return in
    (0, 25] (zero is rejected). *)
Theorem field_entry_absent_iff (inputs : Inputs) :
  (validateInputs inputs !! "marketPrice" = None <->
   1 <= marketPrice inputs <= 500)
  /\ (validateInputs inputs !! "dividendAmount" = None <->
      0 <= dividendAmount inputs <= 50)
  /\ (validateInputs inputs !! "requiredReturn" = None <->
      0 < requiredReturn inputs <= 25)
  /\ (validateInputs inputs !! "expectedDividend" = None <->
      0 <= expectedDividend inputs <= 50).
Proof.
  rewrite validateInputs_marketPrice, validateInputs_dividendAmount,
    validateInputs_requiredReturn, validateInputs_expectedDividend.
  repeat apply conj; field_cases.
Qed.

(** X6: the message of a field names the bound that is violated: the
    lower-bound message below the range (for market price and required
    return also at zero), the upper-bound message above it. *)
Theorem field_message_iff (inputs : Inputs) :
  (validateInputs inputs !! "marketPrice"
   = Some "Market price must be at least $1" <-> marketPrice inputs < 1)
  /\ (validateInputs inputs !! "marketPrice"
      = Some "Market price cannot exceed $500" <-> 500 < marketPrice inputs)
  /\ (validateInputs inputs !! "dividendAmount"
      = Some "Current dividend cannot be negative" <->
      dividendAmount inputs < 0)
  /\ (validateInputs inputs !! "dividendAmount"
      = Some "Current dividend cannot exceed $50" <->
      50 < dividendAmount inputs)
  /\ (validateInputs inputs !! "requiredReturn"
      = Some "Required return must be positive" <->
      requiredReturn inputs <= 0)
  /\ (validateInputs inputs !! "requiredReturn"
      = Some "Required return cannot exceed 25%" <->
      25 < requiredReturn inputs)
  /\ (validateInputs inputs !! "expectedDividend"
      = Some "Expected dividend cannot be negative" <->
      expectedDividend inputs < 0)
  /\ (validateInputs inputs !! "expectedDividend"
      = Some "Expected dividend cannot exceed $50" <->
      50 < expectedDividend inputs).
Proof.
  rewrite validateInputs_marketPrice, validateInputs_dividendAmount,
    validateInputs_requiredReturn, validateInputs_expectedDividend.
  repeat apply conj; field_cases.
Qed.

(** ** When the model exists and what is displayed *)

Lemma model_None (inputs : Inputs) :
  model inputs = None <-> validateInputs inputs <> ∅.
Proof.
  rewrite model_unfold.
  pose proof (hasErrors_false (validateInputs inputs)) as H.
  destruct (hasErrors (validateInputs inputs)); split; intros H1.
  - intros E. apply H in E. discriminate.
  - reflexivity.
  - discriminate.
  - exfalso. apply H1. now apply H.
Qed.

Lemma model_Some_inRange (inputs : Inputs) (res : GrowthModelResult) :
  model inputs = Some res ->
  inRange inputs /\ res = calculateImpliedGrowthRate inputs.
Proof.
  intros H. apply model_Some in H. destruct H as [Hv ->].
  split; [|reflexivity]. now apply validateInputs_empty_inv.
Qed.

(** X7: [model] is [null] exactly when [validateInputs] reported
    something; when it is not, the inputs lie within the documented ranges
    (so the division by the market price is safe) and the inline
    computation agrees with [calculateImpliedGrowthRate]. *)
Theorem model_gate (inputs : Inputs) :
  (model inputs = None <-> validateInputs inputs <> ∅)
  /\ (forall res : GrowthModelResult,
        model inputs = Some res ->
        inRange inputs /\ res = calculateImpliedGrowthRate inputs).
Proof.
  split; [apply model_None | apply model_Some_inRange].
Qed.

Lemma ValidationMessage_None (errors : gmap string string) :
  ValidationMessage errors = None <-> errors = ∅.
Proof.
  unfold ValidationMessage. rewrite <- map_size_empty_iff.
  case_bool_decide; split; intros; try done.
Qed.

(** X8: for every form state exactly one of three blocks is rendered: the
    list of validation messages, the validity warning, or the results with
    the chart.  The consistency note never accompanies validation
    messages. *)
Theorem exactly_one_block (inputs : Inputs) :
  (is_Some (ValidationMessage (validateInputs inputs))
   /\ validityWarningShown inputs = false
   /\ resultsShown inputs = false
   /\ consistencyNoteShown inputs = false)
  \/ (ValidationMessage (validateInputs inputs) = None
      /\ validityWarningShown inputs = true
      /\ resultsShown inputs = false)
  \/ (ValidationMessage (validateInputs inputs) = None
      /\ validityWarningShown inputs = false
      /\ resultsShown inputs = true).
Proof.
  unfold validityWarningShown, resultsShown, consistencyNoteShown.
  destruct (model inputs) as [res|] eqn:Hm.
  - apply model_Some in Hm. destruct Hm as [Hv _].
    right. rewrite (proj2 (ValidationMessage_None _) Hv).
    destruct (isValid res); [right | left]; auto.
  - left. apply model_None in Hm.
    destruct (ValidationMessage (validateInputs inputs)) eqn:E.
    + split; [eauto | auto].
    + apply ValidationMessage_None in E. contradiction.
Qed.

(** X9: whenever the results are shown, the growth line lies inside the
    right axis of the chart, whose upper end stays between 5 and 37.5:
    [0 <= impliedGrowth <= Math.max(5, impliedGrowth * 1.5) <= 37.5]. *)
Theorem growth_line_within_axis (inputs : Inputs) (res : GrowthModelResult) :
  model inputs = Some res ->
  isValid res = true ->
  0 <= impliedGrowth res
  /\ impliedGrowth res <= growthAxisMax res
  /\ 5 <= growthAxisMax res
  /\ growthAxisMax res <= 75 # 2.
Proof.
  intros Hm Hv. apply model_Some_inRange in Hm.
  destruct Hm as [(_ & _ & (_ & Hr) & _) ->].
  rewrite isValid_eq, andb_true_iff, lt_true, ge_true in Hv.
  destruct Hv as [Hlt Hge]. unfold growthAxisMax, JsMath.max.
  rewrite impliedGrowth_eq. set (g := growthFraction inputs) in *.
  assert (Hr' : requiredReturn inputs / 100 <= 1 # 4)
    by (apply Qle_shift_div_r; lra).
  pose proof (Q.le_max_r 5 (g * 100 * (15 # 10))) as H1.
  pose proof (Q.le_max_l 5 (g * 100 * (15 # 10))) as H2.
  repeat split; try lra.
  apply Q.max_lub; lra.
Qed.

Lemma growth_line_within_axis_witness :
  0 <= impliedGrowth (calculateImpliedGrowthRate exampleInputs)
  /\ impliedGrowth (calculateImpliedGrowthRate exampleInputs)
     <= growthAxisMax (calculateImpliedGrowthRate exampleInputs)
  /\ 5 <= growthAxisMax (calculateImpliedGrowthRate exampleInputs)
  /\ growthAxisMax (calculateImpliedGrowthRate exampleInputs) <= 75 # 2.
Proof.
  apply (growth_line_within_axis exampleInputs).
  - vm_compute. reflexivity.
  - reflexivity.
Defined.

(** ** The first version *)

Section ArrayPush.

Context (c : bool) (msg : string) (errors : list string).

(** One test of the first [validateInputs]: [if (c) errors.push(msg)]. *)
Lemma push_test_nil :
  (if c then errors ++ [msg] else errors) = [] <-> c = false /\ errors = [].
Proof.
  destruct c; split.
  - intros H. apply app_eq_nil in H. destruct H as [_ H]. discriminate.
  - intros [H _]. discriminate.
  - auto.
  - intros [_ H]. exact H.
Qed.

End ArrayPush.

Lemma V1_validateInputs_nil (inputs : Inputs) :
  V1.validateInputs inputs = [] <->
  (1 <= marketPrice inputs <= 500)
  /\ (0 <= dividendAmount inputs <= 50)
  /\ (0 <= requiredReturn inputs <= 25)
  /\ (0 <= expectedDividend inputs <= 50).
Proof.
  unfold V1.validateInputs. cbv zeta.
  rewrite !push_test_nil, !orb_false_iff, !lt_false, !gt_false.
  intuition.
Qed.

Lemma V1_model_Some (inputs : Inputs) (res : GrowthModelResult) :
  V1.model inputs = Some res <->
  V1.validateInputs inputs = [] /\ res = calculateImpliedGrowthRate inputs.
Proof.
  unfold V1.model. cbv zeta.
  destruct (V1.validateInputs inputs) as [|e errors]; simpl; split.
  - intros [= <-]. auto.
  - intros [_ ->]. reflexivity.
  - discriminate.
  - intros [? _]. discriminate.
Qed.

(** Neither caller runs the computation on a negative current dividend. *)
Lemma receivable_dividend_nonneg (inputs : Inputs) (res : GrowthModelResult) :
  model inputs = Some res \/ V1.model inputs = Some res ->
  0 <= dividendAmount inputs.
Proof.
  intros [H|H].
  - now apply (model_dividend_nonneg inputs res).
  - apply V1_model_Some in H. destruct H as [H _].
    apply V1_validateInputs_nil in H. tauto.
Qed.

(** X10: the first [validateInputs] returns no message exactly when the
    four fields are within their bounds, a required return of zero
    included, and it never returns more than four messages. *)
Theorem V1_validation_verdict (inputs : Inputs) :
  (V1.validateInputs inputs = [] <->
   (1 <= marketPrice inputs <= 500)
   /\ (0 <= dividendAmount inputs <= 50)
   /\ (0 <= requiredReturn inputs <= 25)
   /\ (0 <= expectedDividend inputs <= 50))
  /\ (length (V1.validateInputs inputs) <= 4)%nat.
Proof.
  split; [apply V1_validateInputs_nil|].
  unfold V1.validateInputs. cbv zeta.
  repeat match goal with
    | |- context [if ?c then _ else _] => destruct c
    end; simpl; lia.
Qed.

(** X11: the later validation is at least as strict as the first one: an
    input it accepts is accepted by the first version too, and both
    versions then hold the same model. *)
Theorem versions_agree (inputs : Inputs) :
  validateInputs inputs = ∅ ->
  V1.validateInputs inputs = []
  /\ V1.model inputs = model inputs
  /\ model inputs = Some (calculateImpliedGrowthRate inputs).
Proof.
  intros Hv.
  assert (H1 : V1.validateInputs inputs = []).
  { apply V1_validateInputs_nil.
    apply validateInputs_empty_inv in Hv.
    destruct Hv as [(Hp & Hd & (Hr1 & Hr2) & He) _].
    repeat split; try tauto; lra. }
  assert (H2 : model inputs = Some (calculateImpliedGrowthRate inputs))
    by (apply model_Some; auto).
  split; [exact H1|]. split; [|exact H2].
  rewrite H2. apply V1_model_Some. auto.
Qed.

Lemma versions_agree_witness :
  V1.validateInputs exampleInputs = []
  /\ V1.model exampleInputs = model exampleInputs
  /\ model exampleInputs = Some (calculateImpliedGrowthRate exampleInputs).
Proof.
  apply (versions_agree exampleInputs). vm_compute. reflexivity.
Defined.

(** X12: a required return of zero separates the versions.  With the other
    fields within bounds the first version computes a model, whose result
    is always invalid, while the later version reports "Required return
    must be positive" and holds no model. *)
Theorem zero_required_return (inputs : Inputs) :
  requiredReturn inputs == 0 ->
  1 <= marketPrice inputs <= 500 ->
  0 <= dividendAmount inputs <= 50 ->
  0 <= expectedDividend inputs <= 50 ->
  (exists res : GrowthModelResult,
      V1.model inputs = Some res /\ isValid res = false)
  /\ validateInputs inputs !! "requiredReturn"
     = Some "Required return must be positive"
  /\ model inputs = None.
Proof.
  intros Hr Hp Hd He.
  assert (Hmsg : validateInputs inputs !! "requiredReturn"
                 = Some "Required return must be positive").
  { rewrite validateInputs_requiredReturn.
    apply not_true in Hr. now rewrite Hr. }
  split; [|split; [exact Hmsg|]].
  - exists (calculateImpliedGrowthRate inputs). split.
    + apply V1_model_Some. split; [|reflexivity].
      apply V1_validateInputs_nil. repeat split; try tauto; lra.
    + rewrite isValid_eq. apply andb_false_iff.
      assert (Hq : 0 <= expectedDividend inputs / marketPrice inputs).
      { apply Qle_shift_div_l; lra. }
      assert (Hr0 : requiredReturn inputs / 100 == 0)
        by (rewrite Hr; reflexivity).
      unfold growthFraction.
      destruct (Qlt_le_dec 0 (expectedDividend inputs / marketPrice inputs)).
      * right. apply ge_false. lra.
      * left. apply lt_false. lra.
  - apply model_None. intros E. rewrite E, lookup_empty in Hmsg.
    discriminate.
Qed.

Lemma zero_required_return_witness :
  (exists res : GrowthModelResult,
      V1.model (mkInputs 100 1 0 4) = Some res /\ isValid res = false)
  /\ validateInputs (mkInputs 100 1 0 4) !! "requiredReturn"
     = Some "Required return must be positive"
  /\ model (mkInputs 100 1 0 4) = None.
Proof.
  apply (zero_required_return (mkInputs 100 1 0 4)).
  - reflexivity.
  - simpl. lra.
  - simpl. lra.
  - simpl. lra.
Defined.

(** X13: the growth-rate tag of the first version always sits between 20%
    and 85% of the chart height; for a growth rate within the fixed axis
    range [0, 1.2] nothing is clamped: the position is the value of
    [25 + (1.2 - g) / 1.2 * 60] itself, which then lies in [25, 85]. *)
Theorem growthTagTop_bounds (res : GrowthModelResult) :
  (20 <= V1.growthTagTop res <= 85)
  /\ (0 <= impliedGrowth res <= 12 # 10 ->
      V1.growthTagTop res
      == 25 + ((12 # 10) - impliedGrowth res) / (12 # 10) * 60
      /\ 25 <= V1.growthTagTop res <= 85).
Proof.
  unfold V1.growthTagTop, JsMath.max, JsMath.min.
  set (t := 25 + ((12 # 10) - impliedGrowth res) / (12 # 10) * 60).
  split.
  - split; [apply Q.le_max_l|].
    apply Q.max_lub; [lra | apply Q.le_min_l].
  - intros [H0 H1].
    assert (Hq0 : 0 <= ((12 # 10) - impliedGrowth res) / (12 # 10))
      by (apply Qle_shift_div_l; lra).
    assert (Hq1 : ((12 # 10) - impliedGrowth res) / (12 # 10) <= 1)
      by (apply Qle_shift_div_r; lra).
    assert (Ht : 25 <= t <= 85) by (unfold t; lra).
    assert (E : Qmax 20 (Qmin 85 t) == t).
    { rewrite Q.min_r by lra. rewrite Q.max_r by lra. reflexivity. }
    rewrite E. split; [reflexivity | exact Ht].
Qed.

(** ** The chart data *)

Lemma chartData_Some (inputs : Inputs) (res : GrowthModelResult) :
  resultOf inputs res ->
  chartData (Some res)
  = map (fun y =>
           let cf := cashflowRow (dividendAmount inputs) (marketPrice inputs)
                       (growthFraction inputs) y in
           {| Chart.yearLabel := JsMath.toString y;
              Chart.year := y;
              Chart.dividendFlow := dividend cf;
              Chart.investmentFlow := investment cf;
              Chart.growthLine := impliedGrowth res |})
        (seq 0 11).
Proof.
  intros Hres. unfold chartData. rewrite (cashflows_eq _ _ Hres).
  rewrite map_map. apply map_ext. intros y. cbv zeta.
  now rewrite cashflowRow_year.
Qed.

Lemma chartData_lookup (inputs : Inputs) (res : GrowthModelResult)
  (y : nat) (row : Chart.Row) :
  resultOf inputs res ->
  chartData (Some res) !! y = Some row ->
  (y <= 10)%nat
  /\ Chart.year row = y
  /\ Chart.yearLabel row = JsMath.toString y
  /\ Chart.dividendFlow row
     = dividend (cashflowRow (dividendAmount inputs) (marketPrice inputs)
                   (growthFraction inputs) y)
  /\ Chart.investmentFlow row
     = investment (cashflowRow (dividendAmount inputs) (marketPrice inputs)
                     (growthFraction inputs) y)
  /\ Chart.growthLine row = impliedGrowth res.
Proof.
  intros Hres Hrow. rewrite (chartData_Some _ _ Hres) in Hrow.
  rewrite list_lookup_fmap in Hrow.
  destruct (seq 0 11 !! y) as [y'|] eqn:Hy; [|discriminate].
  apply lookup_seq in Hy. destruct Hy as [-> Hy].
  simpl in Hrow. injection Hrow as <-. cbn.
  repeat split; lia.
Qed.

(** X14: the chart gets no rows when validation fails; otherwise it gets
    11 rows labelled "0" to "10" in order, each carrying the year, and the
    same [growthLine], the implied growth rate, in every row. *)
Theorem chartData_shape (inputs : Inputs) :
  (validateInputs inputs <> ∅ -> chartData (model inputs) = [])
  /\ (validateInputs inputs = ∅ ->
      map Chart.yearLabel (chartData (model inputs))
      = ["0"; "1"; "2"; "3"; "4"; "5"; "6"; "7"; "8"; "9"; "10"]
      /\ map Chart.year (chartData (model inputs))
         = [0; 1; 2; 3; 4; 5; 6; 7; 8; 9; 10]%nat
      /\ Forall (fun row =>
                   Chart.growthLine row
                   == 100 * growthFraction inputs)
                (chartData (model inputs))).
Proof.
  split.
  - intros H. apply model_None in H. now rewrite H.
  - intros Hv.
    assert (Hm : model inputs = Some (calculateImpliedGrowthRate inputs))
      by (apply model_Some; auto).
    rewrite Hm, (chartData_Some inputs) by (left; reflexivity).
    rewrite !map_map. cbn [Chart.yearLabel Chart.year Chart.growthLine].
    split; [reflexivity|]. split; [reflexivity|].
    apply Forall_fmap, Forall_forall. intros y _. simpl.
    unfold growthFraction. ring.
Qed.

(** ** Bar labels and the data table *)

Lemma label_hidden_iff (v : Q) :
  Js.not_ v || Js.lt (Js.abs v) (1 # 100) = true <-> Qabs v < 1 # 100.
Proof.
  rewrite orb_true_iff, not_true, lt_true. unfold Js.abs. split.
  - intros [H|H]; [|exact H]. rewrite H. reflexivity.
  - auto.
Qed.

Lemma CustomLabel_None (toFixed : Q -> nat -> string) (props : Props.t) :
  CustomLabel toFixed props = None <-> Qabs (Props.value props) < 1 # 100.
Proof.
  rewrite <- label_hidden_iff. unfold CustomLabel. cbv zeta.
  destruct (Js.not_ _ || Js.lt _ _); split; intros; try done.
Qed.

Lemma V1_CustomLabel_None (toFixed : Q -> nat -> string) (props : Props.t) :
  V1.CustomLabel toFixed props = None <->
  Qabs (Props.value props) < 1 # 100.
Proof.
  rewrite <- label_hidden_iff. unfold V1.CustomLabel. cbv zeta.
  destruct (Js.not_ _ || Js.lt _ _); split; intros; try done.
Qed.

Lemma append_empty_r (s : string) : s +:+ "" = s.
Proof.
  induction s as [|a s IH]; [reflexivity|].
  change (String a (s +:+ "") = String a s). now rewrite IH.
Qed.

(** X15: both versions of [CustomLabel] draw nothing exactly when the
    value is below one cent in absolute value (zero included), and for a
    non-negative value they draw the same text element; they differ only
    for negative values. *)
Theorem CustomLabel_versions (toFixed : Q -> nat -> string)
  (props : Props.t) :
  (CustomLabel toFixed props = None <->
   Qabs (Props.value props) < 1 # 100)
  /\ (V1.CustomLabel toFixed props = None <->
      CustomLabel toFixed props = None)
  /\ (0 <= Props.value props ->
      V1.CustomLabel toFixed props = CustomLabel toFixed props).
Proof.
  split; [apply CustomLabel_None|]. split.
  - now rewrite V1_CustomLabel_None, CustomLabel_None.
  - intros Hv. unfold V1.CustomLabel, CustomLabel. cbv zeta.
    apply lt_false in Hv. rewrite Hv.
    destruct (Js.not_ _ || Js.lt _ _); [reflexivity|].
    now rewrite append_empty_r.
Qed.

Lemma Qabs_opp_pos (p : Q) : 0 < p -> Qabs (- p) = p.
Proof.
  destruct p as [n d]. unfold Qlt. simpl. intros H.
  rewrite Z.mul_1_r in H. unfold Qabs, Qopp. simpl.
  rewrite Z.abs_opp, Z.abs_eq by lia. reflexivity.
Qed.

(** X17: in the screen-reader table of accepted inputs the row of year
    [i] is keyed and headed by [i]; the row of year 0 shows the market
    price in parentheses and no dividend, and every later row shows "--"
    for the investment. *)
Theorem tableRow_cells (toFixed : Q -> nat -> string)
  (inputs : Inputs) (res : GrowthModelResult) (i : nat) (row : Chart.Row) :
  model inputs = Some res ->
  chartData (Some res) !! i = Some row ->
  rowKey (tableRow toFixed row) = i
  /\ headerCell (tableRow toFixed row) = JsMath.toString i
  /\ (i = 0%nat ->
      investmentCell (tableRow toFixed row)
      = "(" +:+ toFixed (marketPrice inputs) 2%nat +:+ ")"
      /\ dividendCell (tableRow toFixed row) = "--")
  /\ ((1 <= i)%nat -> investmentCell (tableRow toFixed row) = "--").
Proof.
  intros Hm Hrow.
  pose proof (model_Some_inRange _ _ Hm) as [((Hp & _) & _) _].
  destruct (chartData_lookup inputs res i row (or_intror Hm) Hrow)
    as (_ & Hy & Hl & Hdiv & Hinv & _).
  unfold tableRow.
  cbn [rowKey headerCell investmentCell dividendCell].
  rewrite Hy, Hl, Hdiv, Hinv. split; [reflexivity|]. split; [reflexivity|].
  split.
  - intros ->. cbn [cashflowRow investment dividend].
    assert (Hnz : JsMath.truthy (- marketPrice inputs) = true).
    { unfold JsMath.truthy. apply negb_true_iff, not_false. lra. }
    rewrite Hnz. unfold Js.abs. rewrite Qabs_opp_pos by lra.
    split; reflexivity.
  - intros Hi. destruct i as [|i]; [lia|]. reflexivity.
Qed.

Lemma tableRow_cells_witness :
  investmentCell
    (tableRow (fun _ _ => "54.56")
       (Chart.mkRow "0" 0 0 (- (5456 # 100))
          (impliedGrowth (calculateImpliedGrowthRate exampleInputs))))
  = "(54.56)".
Proof.
  assert (Hrow : chartData (Some (calculateImpliedGrowthRate exampleInputs))
                 !! 0%nat
                 = Some (Chart.mkRow "0" 0 0 (- (5456 # 100))
                           (impliedGrowth
                              (calculateImpliedGrowthRate exampleInputs))))
    by reflexivity.
  assert (Hm : model exampleInputs
               = Some (calculateImpliedGrowthRate exampleInputs))
    by (vm_compute; reflexivity).
  destruct (tableRow_cells (fun _ _ => "54.56") exampleInputs _ 0 _ Hm Hrow)
    as (_ & _ & H0 & _).
  destruct (H0 eq_refl) as [H _]. exact H.
Defined.

(** ** How the growth rate moves with the inputs *)

(** X18: the implied growth rate does not depend on the current dividend,
    and with positive market prices it is monotone in the other three
    inputs: a higher required return or market price, or a lower
    (non-negative) expected dividend, never lowers it. *)
Theorem impliedGrowth_monotone (a b : Inputs) :
  0 < marketPrice a ->
  marketPrice a <= marketPrice b ->
  requiredReturn a <= requiredReturn b ->
  0 <= expectedDividend b ->
  expectedDividend b <= expectedDividend a ->
  impliedGrowth (calculateImpliedGrowthRate a)
  <= impliedGrowth (calculateImpliedGrowthRate b).
Proof.
  intros Hpa Hp Hr Heb He. rewrite !impliedGrowth_eq. unfold growthFraction.
  assert (Hpb : 0 < marketPrice b) by lra.
  assert (Hq : expectedDividend b / marketPrice b
               <= expectedDividend a / marketPrice a).
  { apply Qle_shift_div_l; [assumption|].
    assert (E : expectedDividend b / marketPrice b * marketPrice a
                == expectedDividend b * marketPrice a / marketPrice b)
      by (field; lra).
    rewrite E. apply Qle_shift_div_r; [assumption|]. nra. }
  assert (Hr' : requiredReturn a / 100 <= requiredReturn b / 100).
  { apply Qle_shift_div_l; [reflexivity|].
    assert (E : requiredReturn a / 100 * 100 == requiredReturn a)
      by field.
    rewrite E. exact Hr. }
  lra.
Qed.

Lemma impliedGrowth_monotone_witness :
  impliedGrowth (calculateImpliedGrowthRate exampleInputs)
  <= impliedGrowth (calculateImpliedGrowthRate (mkInputs 60 0 8 3)).
Proof.
  apply (impliedGrowth_monotone exampleInputs (mkInputs 60 0 8 3)).
  - reflexivity.
  - vm_compute. discriminate.
  - vm_compute. discriminate.
  - vm_compute. discriminate.
  - vm_compute. discriminate.
Defined.
